(** * The init-process lifecycle state machine of embedshim

    Shallow embedding of [init_process_state.go] (package [embedshim]).

    The Go file declares the interface [initState], four of its
    implementations ([createdState], [runningState], [pausedState],
    [stoppedState]: each a struct holding the back pointer [p] to the one
    [initProcess]) and the helper [stateName].  A state object never holds
    data of its own, so a state is modelled by its tag, and the mutable
    cell [p.initState] by a field of the [initProcess] record that the
    methods thread through a state monad.  A Go [panic] is the left
    summand of the result: the mutations made before the panic stay. *)

From Stdlib Require Import String List ZArith NArith Bool Lia.
From ExtLib Require Import Structures.Monad Structures.MonadState
  Structures.MonadExc.
From ExtLib Require Import Data.Monads.StateMonad Data.Monads.EitherMonad.
Import ListNotations MonadNotation.
Local Open Scope monad_scope.
Local Open Scope string_scope.
Local Open Scope list_scope.

(** ** Data *)

(** The dynamic type of the value stored in [p.initState]. *)
Inductive initState : Type :=
| createdState
| runningState
| pausedState
| stoppedState
| deletedState.

(** A value of type [interface{}], as [stateName] receives it: a state
    object, [nil], or a value of some other dynamic type. *)
Inductive value : Type :=
| VState (s : initState)
| VNil
| VOther (typeName : string).

(** Go [error] values, kept as format and arguments instead of rendered
    text ([%q] and [%v] are the business of package [fmt]). A Go [error]
    that may be [nil] is an [option error]. *)
Inductive error : Type :=
| Errorf (msg : string)
    (* fmt.Errorf(msg), a constant message *)
| ErrorfTransition (from to : string)
    (* fmt.Errorf("invalid state transition %q to %q", from, to) *)
| ErrorfInvalidState (v : value)
    (* errors.Errorf("invalid state %v", v) *)
| ControllerError (msg : string).
    (* an error made by the process controller *)

(** [google_protobuf.Any] *)
Record Any : Type := mkAny { TypeUrl : string; Value : list Byte.byte }.

(** [CheckpointConfig] holds task checkpoint configuration. *)
Record CheckpointConfig : Type := mkCheckpointConfig {
  WorkDir : string;
  Path : string;
  Exit : bool;
  AllowOpenTCP : bool;
  AllowExternalUnixSockets : bool;
  AllowTerminal : bool;
  FileLocks : bool;
  EmptyNamespaces : list string
}.

(** [runtime.ExecOpts] and [runtime.Process] of containerd, as far as this
    file looks into them: it only passes them on. *)
Record ExecOpts : Type := mkExecOpts { Spec : option Any; Terminal : bool }.

Definition Process : Type := string.

(** What the state machine does to the outside world, in order. *)
Inductive Event : Type :=
| EvStart
| EvDelete
| EvUpdate (r : option Any)
| EvKill (sig : N) (all : bool)
| EvExec (id : string) (opts : ExecOpts)
| EvSetExited (status : Z)
| EvResume (id : string)
| EvLogError (err : error) (msg : string).

(** Modelled from the spec: the process controller (section 6), which is
    behind the methods [start], [delete], [update], [kill], [exec] of
    [initProcess] and behind [p.runtime]; none of them is in this file.
    Each call answers as a function of everything that happened before
    it; it returns, and it does not touch [p.initState]. *)
Record Controller : Type := mkController {
  start : list Event -> option error;
  kill : list Event -> N -> bool -> option error;
  delete : list Event -> option error;
  update : list Event -> option Any -> option error;
  exec : list Event -> string -> ExecOpts -> option Process * option error;
  resume : list Event -> string -> option error
}.

(** The part of [initProcess] this file reads and writes, and the trace
    of the calls made so far. *)
Record initProcess : Type := mkInitProcess {
  ip_ID : string;
  ip_initState : initState;
  ip_status : option Z;
  ip_runtime : Controller;
  ip_trace : list Event
}.

(** ** The monad of the methods *)

Definition M : Type -> Type := eitherT error (state initProcess).

Definition run {A : Type} (m : M A) (p : initProcess)
  : (error + A) * initProcess :=
  runState (unEitherT m) p.

Definition panic {A : Type} (e : error) : M A := raise e.

(** [s.p.initState = v] *)
Definition set_initState (v : initState) : M unit :=
  p <- get ;;
  put (mkInitProcess (ip_ID p) v (ip_status p) (ip_runtime p) (ip_trace p)).

Definition emit (ev : Event) : M unit :=
  p <- get ;;
  put (mkInitProcess (ip_ID p) (ip_initState p) (ip_status p) (ip_runtime p)
         (ip_trace p ++ [ev])).

(** [if err := m; err != nil { panic(err) }] *)
Definition panic_if_err (m : M (option error)) : M unit :=
  err <- m ;;
  match err with
  | Some e => panic e
  | None => ret tt
  end.

(** [logrus.WithError(err).Error(msg)] *)
Definition logrus_Error (err : error) (msg : string) : M unit :=
  emit (EvLogError err msg).

(** Modelled from the spec: the methods of [initProcess] that the states
    call; their bodies are in another file. The spec has them delegate to
    the process controller, and [setExited] record the exit status. *)
Module initProcess.

Definition ID : M string :=
  p <- get ;; ret (ip_ID p).

Definition start : M (option error) :=
  p <- get ;;
  emit EvStart ;;
  ret (start (ip_runtime p) (ip_trace p)).

Definition delete : M (option error) :=
  p <- get ;;
  emit EvDelete ;;
  ret (delete (ip_runtime p) (ip_trace p)).

Definition update (r : option Any) : M (option error) :=
  p <- get ;;
  emit (EvUpdate r) ;;
  ret (update (ip_runtime p) (ip_trace p) r).

Definition kill (sig : N) (all : bool) : M (option error) :=
  p <- get ;;
  emit (EvKill sig all) ;;
  ret (kill (ip_runtime p) (ip_trace p) sig all).

Definition exec (id : string) (opts : ExecOpts)
  : M (option Process * option error) :=
  p <- get ;;
  emit (EvExec id opts) ;;
  ret (exec (ip_runtime p) (ip_trace p) id opts).

Definition setExited (status : Z) : M unit :=
  p <- get ;;
  put (mkInitProcess (ip_ID p) (ip_initState p) (Some status) (ip_runtime p)
         (ip_trace p ++ [EvSetExited status])).

(** [p.runtime.Resume(ctx, id)] *)
Definition runtime_Resume (id : string) : M (option error) :=
  p <- get ;;
  emit (EvResume id) ;;
  ret (resume (ip_runtime p) (ip_trace p) id).

End initProcess.

(** ** [stateName] *)

Definition stateName (v : value) : M string :=
  match v with
  | VState runningState => ret "running"
  | VState createdState => ret "created"
  | VState deletedState => ret "deleted"
  | VState stoppedState => ret "stopped"
  | _ => panic (ErrorfInvalidState v)
  end.

(** [return fmt.Errorf("invalid state transition %q to %q", stateName(s), name)]:
    the arguments are evaluated before the error is built. *)
Definition invalid_transition (s : initState) (name : string)
  : M (option error) :=
  from <- stateName (VState s) ;;
  ret (Some (ErrorfTransition from name)).

(** ** The four states of this file *)

Module createdState.

Definition transition (name : string) : M (option error) :=
  if name =? "running" then set_initState runningState ;; ret None
  else if name =? "stopped" then set_initState stoppedState ;; ret None
  else if name =? "deleted" then set_initState deletedState ;; ret None
  else invalid_transition createdState name.

Definition Pause : M (option error) :=
  ret (Some (Errorf "cannot pause task in created state")).

Definition Resume : M (option error) :=
  ret (Some (Errorf "cannot resume task in created state")).

Definition Update (r : option Any) : M (option error) :=
  initProcess.update r.

Definition Checkpoint (_ : option CheckpointConfig) : M (option error) :=
  ret (Some (Errorf "cannot checkpoint a task in created state")).

Definition Start : M (option error) :=
  err <- initProcess.start ;;
  match err with
  | Some e => ret (Some e)
  | None => transition "running"
  end.

Definition Delete : M (option error) :=
  err <- initProcess.delete ;;
  match err with
  | Some e => ret (Some e)
  | None => transition "deleted"
  end.

Definition Kill (sig : N) (all : bool) : M (option error) :=
  initProcess.kill sig all.

(** The body of [SetExited], with the [transition] method that it calls
    as the parameter [tr]. *)
Definition SetExited_with (tr : string -> M (option error)) (status : Z)
  : M unit :=
  initProcess.setExited status ;;
  panic_if_err (tr "stopped").

(** [SetExited] calls the [transition] of its own receiver. *)
Definition SetExited (status : Z) : M unit :=
  SetExited_with transition status.

Definition Exec (id : string) (opts : ExecOpts)
  : M (option Process * option error) :=
  initProcess.exec id opts.

Definition Status : M (string * option error) :=
  ret ("created", None).

End createdState.

Module runningState.

Definition transition (name : string) : M (option error) :=
  if name =? "stopped" then set_initState stoppedState ;; ret None
  else if name =? "paused" then set_initState pausedState ;; ret None
  else invalid_transition runningState name.

Definition Pause : M (option error) :=
  ret (Some (Errorf "pause not implemented yet")).

Definition Resume : M (option error) :=
  ret (Some (Errorf "cannot resume a running process")).

Definition Update (r : option Any) : M (option error) :=
  initProcess.update r.

Definition Checkpoint (_ : option CheckpointConfig) : M (option error) :=
  ret (Some (Errorf "checkpoint not implemented yet")).

Definition Start : M (option error) :=
  ret (Some (Errorf "cannot start a running process")).

Definition Delete : M (option error) :=
  ret (Some (Errorf "cannot delete a running process")).

Definition Kill (sig : N) (all : bool) : M (option error) :=
  initProcess.kill sig all.

(** The body of [SetExited], with the [transition] method that it calls
    as the parameter [tr]. *)
Definition SetExited_with (tr : string -> M (option error)) (status : Z)
  : M unit :=
  initProcess.setExited status ;;
  panic_if_err (tr "stopped").

(** [SetExited] calls the [transition] of its own receiver. *)
Definition SetExited (status : Z) : M unit :=
  SetExited_with transition status.

Definition Exec (id : string) (opts : ExecOpts)
  : M (option Process * option error) :=
  initProcess.exec id opts.

Definition Status : M (string * option error) :=
  ret ("running", None).

End runningState.

Module pausedState.

Definition transition (name : string) : M (option error) :=
  if name =? "running" then set_initState runningState ;; ret None
  else if name =? "stopped" then set_initState stoppedState ;; ret None
  else invalid_transition pausedState name.

Definition Pause : M (option error) :=
  ret (Some (Errorf "cannot pause a paused container")).

Definition Resume : M (option error) :=
  ret (Some (Errorf "resume not implemented yet")).

Definition Update (r : option Any) : M (option error) :=
  initProcess.update r.

Definition Checkpoint (_ : option CheckpointConfig) : M (option error) :=
  ret (Some (Errorf "checkpoint not implemented yet")).

Definition Start : M (option error) :=
  ret (Some (Errorf "cannot start a paused process")).

Definition Delete : M (option error) :=
  ret (Some (Errorf "cannot delete a paused process")).

Definition Kill (sig : N) (all : bool) : M (option error) :=
  initProcess.kill sig all.

Definition resume_log_msg : string :=
  "resuming exited container from paused state".

(** The body of [SetExited], with the [transition] method that it calls
    as the parameter [tr]. *)
Definition SetExited_with (tr : string -> M (option error)) (status : Z)
  : M unit :=
  initProcess.setExited status ;;
  id <- initProcess.ID ;;
  err <- initProcess.runtime_Resume id ;;
  match err with
  | Some e => logrus_Error e resume_log_msg
  | None => ret tt
  end ;;
  panic_if_err (tr "stopped").

(** [SetExited] calls the [transition] of its own receiver. *)
Definition SetExited (status : Z) : M unit :=
  SetExited_with transition status.

Definition Exec (_ : string) (_ : ExecOpts)
  : M (option Process * option error) :=
  ret (None, Some (Errorf "cannot exec in a paused state")).

Definition Status : M (string * option error) :=
  ret ("paused", None).

End pausedState.

Module stoppedState.

Definition transition (name : string) : M (option error) :=
  if name =? "deleted" then set_initState deletedState ;; ret None
  else invalid_transition stoppedState name.

Definition Pause : M (option error) :=
  ret (Some (Errorf "cannot pause a stopped container")).

Definition Resume : M (option error) :=
  ret (Some (Errorf "cannot resume a stopped container")).

Definition Update (_ : option Any) : M (option error) :=
  ret (Some (Errorf "cannot update a stopped container")).

Definition Checkpoint (_ : option CheckpointConfig) : M (option error) :=
  ret (Some (Errorf "cannot checkpoint a stopped container")).

Definition Start : M (option error) :=
  ret (Some (Errorf "cannot start a stopped process")).

Definition Delete : M (option error) :=
  err <- initProcess.delete ;;
  match err with
  | Some e => ret (Some e)
  | None => transition "deleted"
  end.

Definition Kill (sig : N) (all : bool) : M (option error) :=
  initProcess.kill sig all.

(* no op *)
Definition SetExited (_ : Z) : M unit :=
  ret tt.

Definition Exec (_ : string) (_ : ExecOpts)
  : M (option Process * option error) :=
  ret (None, Some (Errorf "cannot exec in a stopped state")).

Definition Status : M (string * option error) :=
  ret ("stopped", None).

End stoppedState.

(** Modelled from the spec: [deletedState], which the transitions install
    and whose methods are in another file. Section 4.1 gives an error for
    each of the eight operations below in the Deleted column, and says
    nothing of what [SetExited] and [Status] do there. *)
Module deletedState.

Definition Start : M (option error) :=
  ret (Some (Errorf "cannot start a deleted process")).

Definition Pause : M (option error) :=
  ret (Some (Errorf "cannot pause a deleted process")).

Definition Resume : M (option error) :=
  ret (Some (Errorf "cannot resume a deleted process")).

Definition Update (_ : option Any) : M (option error) :=
  ret (Some (Errorf "cannot update a deleted process")).

Definition Checkpoint (_ : option CheckpointConfig) : M (option error) :=
  ret (Some (Errorf "cannot checkpoint a deleted process")).

Definition Delete : M (option error) :=
  ret (Some (Errorf "cannot delete a deleted process")).

Definition Kill (_ : N) (_ : bool) : M (option error) :=
  ret (Some (Errorf "cannot kill a deleted process")).

Definition Exec (_ : string) (_ : ExecOpts)
  : M (option Process * option error) :=
  ret (None, Some (Errorf "cannot exec in a deleted state")).

End deletedState.

(** ** Calls through the interface [initState] *)

Inductive operation : Type :=
| OpStart
| OpDelete
| OpPause
| OpResume
| OpUpdate (r : option Any)
| OpCheckpoint (cfg : option CheckpointConfig)
| OpExec (id : string) (opts : ExecOpts)
| OpKill (sig : N) (all : bool)
| OpSetExited (status : Z)
| OpStatus.

(** What a method of the interface hands back. *)
Inductive result : Type :=
| RError (err : option error)
| RExec (r : option Process * option error)
| RUnit
| RStatus (r : string * option error).

Definition result_error (r : result) : option error :=
  match r with
  | RError err => err
  | RExec (_, err) => err
  | RUnit => None
  | RStatus (_, err) => err
  end.

Definition returning {A : Type} (f : A -> result) (m : M A) : M result :=
  x <- m ;; ret (f x).

(** The method that a call on a value of dynamic type [s] runs; [None]
    where the method is not known ([deletedState]'s [SetExited] and
    [Status]). *)
Definition invoke (s : initState) (op : operation) : option (M result) :=
  match s, op with
  | createdState, OpStart => Some (returning RError createdState.Start)
  | createdState, OpDelete => Some (returning RError createdState.Delete)
  | createdState, OpPause => Some (returning RError createdState.Pause)
  | createdState, OpResume => Some (returning RError createdState.Resume)
  | createdState, OpUpdate r => Some (returning RError (createdState.Update r))
  | createdState, OpCheckpoint c =>
      Some (returning RError (createdState.Checkpoint c))
  | createdState, OpExec id o => Some (returning RExec (createdState.Exec id o))
  | createdState, OpKill sig all =>
      Some (returning RError (createdState.Kill sig all))
  | createdState, OpSetExited st =>
      Some (returning (fun _ => RUnit) (createdState.SetExited st))
  | createdState, OpStatus => Some (returning RStatus createdState.Status)
  | runningState, OpStart => Some (returning RError runningState.Start)
  | runningState, OpDelete => Some (returning RError runningState.Delete)
  | runningState, OpPause => Some (returning RError runningState.Pause)
  | runningState, OpResume => Some (returning RError runningState.Resume)
  | runningState, OpUpdate r => Some (returning RError (runningState.Update r))
  | runningState, OpCheckpoint c =>
      Some (returning RError (runningState.Checkpoint c))
  | runningState, OpExec id o => Some (returning RExec (runningState.Exec id o))
  | runningState, OpKill sig all =>
      Some (returning RError (runningState.Kill sig all))
  | runningState, OpSetExited st =>
      Some (returning (fun _ => RUnit) (runningState.SetExited st))
  | runningState, OpStatus => Some (returning RStatus runningState.Status)
  | pausedState, OpStart => Some (returning RError pausedState.Start)
  | pausedState, OpDelete => Some (returning RError pausedState.Delete)
  | pausedState, OpPause => Some (returning RError pausedState.Pause)
  | pausedState, OpResume => Some (returning RError pausedState.Resume)
  | pausedState, OpUpdate r => Some (returning RError (pausedState.Update r))
  | pausedState, OpCheckpoint c =>
      Some (returning RError (pausedState.Checkpoint c))
  | pausedState, OpExec id o => Some (returning RExec (pausedState.Exec id o))
  | pausedState, OpKill sig all =>
      Some (returning RError (pausedState.Kill sig all))
  | pausedState, OpSetExited st =>
      Some (returning (fun _ => RUnit) (pausedState.SetExited st))
  | pausedState, OpStatus => Some (returning RStatus pausedState.Status)
  | stoppedState, OpStart => Some (returning RError stoppedState.Start)
  | stoppedState, OpDelete => Some (returning RError stoppedState.Delete)
  | stoppedState, OpPause => Some (returning RError stoppedState.Pause)
  | stoppedState, OpResume => Some (returning RError stoppedState.Resume)
  | stoppedState, OpUpdate r => Some (returning RError (stoppedState.Update r))
  | stoppedState, OpCheckpoint c =>
      Some (returning RError (stoppedState.Checkpoint c))
  | stoppedState, OpExec id o => Some (returning RExec (stoppedState.Exec id o))
  | stoppedState, OpKill sig all =>
      Some (returning RError (stoppedState.Kill sig all))
  | stoppedState, OpSetExited st =>
      Some (returning (fun _ => RUnit) (stoppedState.SetExited st))
  | stoppedState, OpStatus => Some (returning RStatus stoppedState.Status)
  | deletedState, OpStart => Some (returning RError deletedState.Start)
  | deletedState, OpDelete => Some (returning RError deletedState.Delete)
  | deletedState, OpPause => Some (returning RError deletedState.Pause)
  | deletedState, OpResume => Some (returning RError deletedState.Resume)
  | deletedState, OpUpdate r => Some (returning RError (deletedState.Update r))
  | deletedState, OpCheckpoint c =>
      Some (returning RError (deletedState.Checkpoint c))
  | deletedState, OpExec id o => Some (returning RExec (deletedState.Exec id o))
  | deletedState, OpKill sig all =>
      Some (returning RError (deletedState.Kill sig all))
  | deletedState, OpSetExited _ => None
  | deletedState, OpStatus => None
  end.

(** The [transition] method of the four states that have one. *)
Definition transition (s : initState)
  : option (string -> M (option error)) :=
  match s with
  | createdState => Some createdState.transition
  | runningState => Some runningState.transition
  | pausedState => Some pausedState.transition
  | stoppedState => Some stoppedState.transition
  | deletedState => None
  end.

(** [SetExited] of the three states where it does something. *)
Definition SetExited (s : initState) : option (Z -> M unit) :=
  match s with
  | createdState => Some createdState.SetExited
  | runningState => Some runningState.SetExited
  | pausedState => Some pausedState.SetExited
  | _ => None
  end.

(** A run of calls, one after the other. *)
Fixpoint repeatedly {A : Type} (f : A -> M unit) (xs : list A) : M unit :=
  match xs with
  | [] => ret tt
  | x :: xs' => f x ;; repeatedly f xs'
  end.

(** ** The tables of the specification *)

(** The allowed transition edges of section 3, by source state, under the
    names that [transition] takes. *)
Definition spec_successors (s : initState) : list string :=
  match s with
  | createdState => ["running"; "stopped"; "deleted"]
  | runningState => ["stopped"; "paused"]
  | pausedState => ["running"; "stopped"]
  | stoppedState => ["deleted"]
  | deletedState => []
  end.

(** The kinds of entry of the operation table of section 4.1. *)
Inductive entry : Type :=
| Delegate (successor : option initState)
| IllegalError
| NotImplemented
| RecordExitStatus
| NoOp
| Reports (status : string)
| NotReachable.

Definition spec_table (op : operation) (s : initState) : entry :=
  match op, s with
  | OpStart, createdState => Delegate (Some runningState)
  | OpStart, _ => IllegalError
  | OpPause, runningState => NotImplemented
  | OpPause, _ => IllegalError
  | OpResume, pausedState => NotImplemented
  | OpResume, _ => IllegalError
  | OpUpdate _, (createdState | runningState | pausedState) => Delegate None
  | OpUpdate _, _ => IllegalError
  | OpCheckpoint _, (runningState | pausedState) => NotImplemented
  | OpCheckpoint _, _ => IllegalError
  | OpDelete, (createdState | stoppedState) => Delegate (Some deletedState)
  | OpDelete, _ => IllegalError
  | OpKill _ _, deletedState => IllegalError
  | OpKill _ _, _ => Delegate None
  | OpExec _ _, (createdState | runningState) => Delegate None
  | OpExec _ _, _ => IllegalError
  | OpSetExited _, stoppedState => NoOp
  | OpSetExited _, deletedState => NotReachable
  | OpSetExited _, _ => RecordExitStatus
  | OpStatus, createdState => Reports "created"
  | OpStatus, runningState => Reports "running"
  | OpStatus, pausedState => Reports "paused"
  | OpStatus, stoppedState => Reports "stopped"
  | OpStatus, deletedState => NotReachable
  end.

(** "not a delegation and not a record-exit-status action" *)
Definition neither_delegate_nor_record (e : entry) : bool :=
  match e with
  | Delegate _ | RecordExitStatus => false
  | _ => true
  end.

(** An entry that reads "error" or "not implemented (explicit error)". *)
Definition is_error_entry (e : entry) : bool :=
  match e with
  | IllegalError | NotImplemented => true
  | _ => false
  end.

(** ** Sample controllers and processes *)

Definition willing : Controller :=
  mkController (fun _ => None) (fun _ _ _ => None) (fun _ => None)
    (fun _ _ => None) (fun _ id _ => (Some id, None)) (fun _ _ => None).

Definition broken_error : error := ControllerError "runtime failure".

Definition broken : Controller :=
  mkController (fun _ => Some broken_error) (fun _ _ _ => Some broken_error)
    (fun _ => Some broken_error) (fun _ _ => Some broken_error)
    (fun _ _ _ => (None, Some broken_error)) (fun _ _ => Some broken_error).

Definition fresh (s : initState) (c : Controller) : initProcess :=
  mkInitProcess "init" s None c [].

(** How often the controller was asked to resume [id]. *)
Definition is_resume (id : string) (ev : Event) : bool :=
  match ev with
  | EvResume id' => id' =? id
  | _ => false
  end.

Definition resume_calls (id : string) (t : list Event) : nat :=
  List.length (List.filter (is_resume id) t).

(** How many calls of any kind reached the controller. *)
Definition is_controller_call (ev : Event) : bool :=
  match ev with
  | EvStart | EvDelete | EvUpdate _ | EvKill _ _ | EvExec _ _ | EvResume _ =>
      true
  | EvSetExited _ | EvLogError _ _ => false
  end.

Definition controller_calls (t : list Event) : nat :=
  List.length (List.filter is_controller_call t).

(** ** Writing down the process after a call *)

(** [p] with [s] installed as its state. *)
Definition in_state (s : initState) (p : initProcess) : initProcess :=
  mkInitProcess (ip_ID p) s (ip_status p) (ip_runtime p) (ip_trace p).

(** [p] after the events [evs]. *)
Definition after (evs : list Event) (p : initProcess) : initProcess :=
  mkInitProcess (ip_ID p) (ip_initState p) (ip_status p) (ip_runtime p)
    (ip_trace p ++ evs).

(** [p] with the exit status [status] on record. *)
Definition exited (status : Z) (p : initProcess) : initProcess :=
  mkInitProcess (ip_ID p) (ip_initState p) (Some status) (ip_runtime p)
    (ip_trace p ++ [EvSetExited status]).

(** What [pausedState.SetExited] logs, given what [Resume] answered. *)
Definition resume_log (answer : option error) : list Event :=
  match answer with
  | Some e => [EvLogError e pausedState.resume_log_msg]
  | None => []
  end.

(** The state that a name stands for. *)
Definition state_named (name : string) : option initState :=
  if name =? "created" then Some createdState
  else if name =? "running" then Some runningState
  else if name =? "paused" then Some pausedState
  else if name =? "stopped" then Some stoppedState
  else if name =? "deleted" then Some deletedState
  else None.

(** An operation is turned down in state [s]: called on a process in
    that state it returns an error and the process is as it was. *)
Definition rejects (s : initState) (op : operation) : Prop :=
  forall p : initProcess,
    ip_initState p = s ->
    exists (m : M result) (r : result) (e : error),
      invoke s op = Some m
      /\ run m p = (inr r, p)
      /\ result_error r = Some e.

(** ** Calls on the state the process is in *)

(** [p.initState.Op(...)]: the call goes to the method of the state that
    is installed at that moment. The methods of [deletedState] are in
    another file: a call on a deleted process is not run here, and
    answers [None]. *)
Definition call (op : operation) : M (option result) :=
  p <- get ;;
  match ip_initState p with
  | deletedState => ret None
  | s =>
      match invoke s op with
      | Some m => r <- m ;; ret (Some r)
      | None => ret None
      end
  end.

(** Calls one after the other, as far as they are run: the results of the
    calls made before the process is deleted. *)
Fixpoint calls (ops : list operation) : M (list result) :=
  match ops with
  | [] => ret []
  | op :: rest =>
      r <- call op ;;
      match r with
      | Some x => rs <- calls rest ;; ret (x :: rs)
      | None => ret []
      end
  end.

(** The process that a computation leaves behind. *)
Definition left_by {A : Type} (m : M A) (p : initProcess) : initProcess :=
  snd (run m p).

(** How far along its life a process is. *)
Definition rank (s : initState) : nat :=
  match s with
  | createdState => 0
  | runningState => 1
  | pausedState => 2
  | stoppedState => 3
  | deletedState => 4
  end.

(** What the controller answers to the one call that the method of state
    [s] for [op] hands over to it, for the methods that do hand over: the
    whole answer, as the result that the method owes its caller. *)
Definition handed_over (s : initState) (op : operation) (p : initProcess)
  : option result :=
  match s, op with
  | createdState, OpStart => Some (RError (start (ip_runtime p) (ip_trace p)))
  | (createdState | stoppedState), OpDelete =>
      Some (RError (delete (ip_runtime p) (ip_trace p)))
  | (createdState | runningState | pausedState), OpUpdate r =>
      Some (RError (update (ip_runtime p) (ip_trace p) r))
  | (createdState | runningState | pausedState | stoppedState), OpKill sig all =>
      Some (RError (kill (ip_runtime p) (ip_trace p) sig all))
  | (createdState | runningState), OpExec id opts =>
      Some (RExec (exec (ip_runtime p) (ip_trace p) id opts))
  | _, _ => None
  end.

(** The operations whose methods call [transition]. *)
Definition may_move (op : operation) : bool :=
  match op with
  | OpStart | OpDelete | OpSetExited _ => true
  | _ => false
  end.

(** How often [setExited] of [initProcess] was called. *)
Definition is_exit_record (ev : Event) : bool :=
  match ev with
  | EvSetExited _ => true
  | _ => false
  end.

Definition exit_records (t : list Event) : nat :=
  List.length (List.filter is_exit_record t).

(** * Properties *)

(** ** Counting calls in a trace *)

Lemma resume_calls_app (id : string) (t u : list Event) :
  resume_calls id (t ++ u) = resume_calls id t + resume_calls id u.
Proof.
  unfold resume_calls. rewrite filter_app, length_app. reflexivity.
Qed.

Lemma controller_calls_app (t u : list Event) :
  controller_calls (t ++ u) = controller_calls t + controller_calls u.
Proof.
  unfold controller_calls. rewrite filter_app, length_app. reflexivity.
Qed.

Lemma resume_log_quiet (id : string) (answer : option error) :
  resume_calls id (resume_log answer) = 0
  /\ controller_calls (resume_log answer) = 0.
Proof. destruct answer; split; reflexivity. Qed.

(** ** Running the methods *)

Lemma run_createdState_SetExited (status : Z) (p : initProcess) :
  run (createdState.SetExited status) p
  = (inr tt, in_state stoppedState (exited status p)).
Proof. reflexivity. Qed.

Lemma run_runningState_SetExited (status : Z) (p : initProcess) :
  run (runningState.SetExited status) p
  = (inr tt, in_state stoppedState (exited status p)).
Proof. reflexivity. Qed.

Lemma run_pausedState_SetExited (status : Z) (p : initProcess) :
  run (pausedState.SetExited status) p
  = (inr tt,
     in_state stoppedState
       (after (EvResume (ip_ID p)
               :: resume_log (resume (ip_runtime p) (ip_trace (exited status p))
                                (ip_ID p)))
          (exited status p))).
Proof.
  unfold run, pausedState.SetExited. cbn.
  destruct (resume (ip_runtime p) (ip_trace p ++ [EvSetExited status]) (ip_ID p));
    unfold in_state, after, exited; cbn; rewrite <- ?app_assoc; reflexivity.
Qed.

Lemma run_repeatedly_stopped (statuses : list Z) (p : initProcess) :
  run (repeatedly stoppedState.SetExited statuses) p = (inr tt, p).
Proof.
  induction statuses as [| status rest IH]; [reflexivity |].
  unfold run in *. cbn in *. rewrite IH. reflexivity.
Qed.


Lemma run_stateName_unhandled (v : value) (p : initProcess) :
  (forall s, v = VState s -> s = pausedState) ->
  run (stateName v) p = (inl (ErrorfInvalidState v), p).
Proof.
  intros H. destruct v as [s | | ty]; try reflexivity.
  rewrite (H s eq_refl). reflexivity.
Qed.

Lemma run_pausedState_transition_invalid (name : string) (p : initProcess) :
  name <> "running" -> name <> "stopped" ->
  run (pausedState.transition name) p
  = (inl (ErrorfInvalidState (VState pausedState)), p).
Proof.
  intros Hr Hs. unfold pausedState.transition.
  destruct (String.eqb_spec name "running") as [E | _]; [contradiction |].
  destruct (String.eqb_spec name "stopped") as [E | _]; [contradiction |].
  reflexivity.
Qed.

(** A name outside the successors of [s] falls to the [default] branch of
    [s]'s [transition]. *)
Lemma transition_default (s : initState) (name : string) :
  ~ In name (spec_successors s) ->
  forall tr, transition s = Some tr -> tr name = invalid_transition s name.
Proof.
  intros Hout tr Htr.
  destruct s; inversion Htr; subst tr; clear Htr; cbn in Hout.
  - unfold createdState.transition.
    destruct (String.eqb_spec name "running") as [E | _];
      [exfalso; apply Hout; auto |].
    destruct (String.eqb_spec name "stopped") as [E | _];
      [exfalso; apply Hout; auto |].
    destruct (String.eqb_spec name "deleted") as [E | _];
      [exfalso; apply Hout; auto |].
    reflexivity.
  - unfold runningState.transition.
    destruct (String.eqb_spec name "stopped") as [E | _];
      [exfalso; apply Hout; auto |].
    destruct (String.eqb_spec name "paused") as [E | _];
      [exfalso; apply Hout; auto |].
    reflexivity.
  - unfold pausedState.transition.
    destruct (String.eqb_spec name "running") as [E | _];
      [exfalso; apply Hout; auto |].
    destruct (String.eqb_spec name "stopped") as [E | _];
      [exfalso; apply Hout; auto |].
    reflexivity.
  - unfold stoppedState.transition.
    destruct (String.eqb_spec name "deleted") as [E | _];
      [exfalso; apply Hout; auto |].
    reflexivity.
Qed.

(** A name among the successors of [s] is accepted, and the state it
    names is installed. *)
Lemma transition_listed (s : initState) (name : string) (p : initProcess) :
  In name (spec_successors s) ->
  exists tr t, transition s = Some tr /\ state_named name = Some t
               /\ run (tr name) p = (inr None, in_state t p).
Proof.
  intros Hin.
  destruct s; cbn in Hin;
    repeat (destruct Hin as [<- | Hin]; [eexists; eexists; repeat split |]);
    contradiction.
Qed.

(** ** The claims *)

(** C1: [SetExited] of the paused state records the exit status, asks the
    controller to resume the process id exactly once and nothing else of
    it, returns normally whatever the controller answers (a failure is
    logged, not passed on), and leaves the process in the stopped state. *)
Theorem pausedState_SetExited_compensates (status : Z) (p : initProcess) :
  exists (answer : option error) (p' : initProcess),
    answer = resume (ip_runtime p) (ip_trace p ++ [EvSetExited status]) (ip_ID p)
    /\ run (pausedState.SetExited status) p = (inr tt, p')
    /\ ip_initState p' = stoppedState
    /\ ip_status p' = Some status
    /\ ip_trace p'
       = ip_trace p
         ++ [EvSetExited status; EvResume (ip_ID p)] ++ resume_log answer
    /\ resume_calls (ip_ID p) (ip_trace p')
       = S (resume_calls (ip_ID p) (ip_trace p))
    /\ controller_calls (ip_trace p') = S (controller_calls (ip_trace p)).
Proof.
  eexists; eexists. split; [reflexivity |].
  split; [apply run_pausedState_SetExited |].
  set (answer := resume _ _ _).
  assert (Ht : ip_trace p ++ [EvSetExited status; EvResume (ip_ID p)]
                 ++ resume_log answer
               = (ip_trace p ++ [EvSetExited status])
                   ++ EvResume (ip_ID p) :: resume_log answer)
    by (rewrite <- app_assoc; reflexivity).
  cbn [ip_initState ip_status ip_trace in_state after exited].
  repeat split.
  - symmetry. exact Ht.
  - fold answer. rewrite <- Ht.
    rewrite !resume_calls_app.
    destruct (resume_log_quiet (ip_ID p) answer) as [-> _].
    unfold resume_calls at 2. cbn. rewrite String.eqb_refl. cbn. lia.
  - fold answer. rewrite <- Ht.
    rewrite !controller_calls_app.
    destruct (resume_log_quiet (ip_ID p) answer) as [_ ->].
    cbn. lia.
Qed.

(** C2: in the created, the running and the paused state [SetExited]
    returns normally, whatever the process has been through and whatever
    the controller answers, with the exit status on record and the
    process stopped. *)
Theorem SetExited_always_stops (s : initState) (status : Z) (p : initProcess) :
  In s [createdState; runningState; pausedState] ->
  exists (f : Z -> M unit) (p' : initProcess),
    SetExited s = Some f
    /\ run (f status) p = (inr tt, p')
    /\ ip_initState p' = stoppedState
    /\ ip_status p' = Some status
    /\ In (EvSetExited status) (ip_trace p').
Proof.
  intros Hs. cbn in Hs.
  destruct Hs as [<- | [<- | [<- | []]]]; eexists; eexists;
    (split; [reflexivity |]).
  - split; [apply run_createdState_SetExited |].
    repeat split. cbn. apply in_or_app. right. left. reflexivity.
  - split; [apply run_runningState_SetExited |].
    repeat split. cbn. apply in_or_app. right. left. reflexivity.
  - split; [apply run_pausedState_SetExited |].
    repeat split. cbn. apply in_or_app. left. apply in_or_app. right. left. reflexivity.
Qed.

(** C3: [Start] of the created state calls the controller once; when the
    controller succeeds, [Start] returns no error and the process is
    running; when it fails, [Start] returns the controller's error as it
    is and the state is the one before the call. *)
Theorem createdState_Start_delegates (p : initProcess) :
  ip_initState p = createdState ->
  (start (ip_runtime p) (ip_trace p) = None ->
   run createdState.Start p
   = (inr None, in_state runningState (after [EvStart] p)))
  /\ (forall e : error,
        start (ip_runtime p) (ip_trace p) = Some e ->
        run createdState.Start p = (inr (Some e), after [EvStart] p)
        /\ ip_initState (after [EvStart] p) = createdState).
Proof.
  intros Hc. split.
  - intros H. unfold run, createdState.Start. cbn. rewrite H. reflexivity.
  - intros e H. split; [| exact Hc].
    unfold run, createdState.Start. cbn. rewrite H. reflexivity.
Qed.

(** C4: [Delete] goes through in the created and in the stopped state,
    where a successful controller call leaves the process deleted; in the
    running and in the paused state it returns an error, calls nothing
    and changes nothing. *)
Theorem Delete_only_created_or_stopped (p : initProcess) :
  (delete (ip_runtime p) (ip_trace p) = None ->
   run createdState.Delete p
   = (inr None, in_state deletedState (after [EvDelete] p))
   /\ run stoppedState.Delete p
      = (inr None, in_state deletedState (after [EvDelete] p)))
  /\ run runningState.Delete p
     = (inr (Some (Errorf "cannot delete a running process")), p)
  /\ run pausedState.Delete p
     = (inr (Some (Errorf "cannot delete a paused process")), p).
Proof.
  split; [| split; reflexivity].
  intros H. split.
  - unfold run, createdState.Delete. cbn. rewrite H. reflexivity.
  - unfold run, stoppedState.Delete. cbn. rewrite H. reflexivity.
Qed.

(** C5, as stated, fails: the entry of [Status] in the created state is
    neither a delegation nor a record-exit-status action, and [Status]
    returns the name of the state with a nil error. *)
Lemma Status_entry_is_no_error :
  neither_delegate_nor_record (spec_table OpStatus createdState) = true
  /\ ~ rejects createdState OpStatus.
Proof.
  split; [reflexivity |].
  intros H.
  destruct (H (fresh createdState willing) eq_refl) as (m & r & e & Hm & Hrun & He).
  inversion Hm; subst m; clear Hm.
  cbv in Hrun. inversion Hrun; subst r. discriminate He.
Qed.

(** C5, amended: every pair of a state and an operation whose entry in
    the table of section 4.1 is an error ("error: ..." or "not
    implemented") is turned down: the call returns an error and leaves
    the process, its state included, as it was. *)
Theorem error_entries_reject (s : initState) (op : operation) :
  is_error_entry (spec_table op s) = true -> rejects s op.
Proof.
  intros H p _.
  destruct s, op; cbn in H; try discriminate H;
    (eexists; eexists; eexists;
     split; [reflexivity | split; [reflexivity | reflexivity]]).
Qed.

(** C6: any run of [SetExited] calls on the stopped state, with whatever
    statuses, returns normally and leaves the process exactly as it was:
    still stopped, and not one more event in its trace. *)
Theorem stoppedState_SetExited_idempotent
  (statuses : list Z) (p : initProcess) :
  ip_initState p = stoppedState ->
  exists p' : initProcess,
    run (repeatedly stoppedState.SetExited statuses) p = (inr tt, p')
    /\ ip_initState p' = stoppedState
    /\ controller_calls (ip_trace p') = controller_calls (ip_trace p)
    /\ p' = p.
Proof.
  intros Hs. exists p.
  split; [apply run_repeatedly_stopped |].
  repeat split. exact Hs.
Qed.

(** C7: [Status] of each of the four states returns the name of that
    state with a nil error and leaves the process as it was, trace
    included. *)
Theorem Status_is_pure (p : initProcess) :
  run createdState.Status p = (inr ("created", None), p)
  /\ run runningState.Status p = (inr ("running", None), p)
  /\ run pausedState.Status p = (inr ("paused", None), p)
  /\ run stoppedState.Status p = (inr ("stopped", None), p).
Proof. repeat split. Qed.





(** C9: in the created, the running and the paused state the name
    "stopped" is accepted by [transition], which returns nil and installs
    the stopped state; so [SetExited] returns normally from every
    process: it never panics. *)
Theorem SetExited_never_panics (s : initState) :
  In s [createdState; runningState; pausedState] ->
  exists (tr : string -> M (option error)) (f : Z -> M unit),
    transition s = Some tr
    /\ SetExited s = Some f
    /\ In "stopped" (spec_successors s)
    /\ (forall p : initProcess,
          run (tr "stopped") p = (inr None, in_state stoppedState p))
    /\ (forall (status : Z) (p : initProcess),
          exists p' : initProcess, run (f status) p = (inr tt, p'))
    /\ (forall (status : Z) (p p' : initProcess) (e : error),
          run (f status) p <> (inl e, p')).
Proof.
  intros Hs. cbn in Hs.
  destruct Hs as [<- | [<- | [<- | []]]]; eexists; eexists;
    (split; [reflexivity |]); (split; [reflexivity |]);
    (split; [cbn; tauto |]); (split; [reflexivity |]); split.
  - intros status p. eexists. apply run_createdState_SetExited.
  - intros status p p' e. rewrite run_createdState_SetExited. discriminate.
  - intros status p. eexists. apply run_runningState_SetExited.
  - intros status p p' e. rewrite run_runningState_SetExited. discriminate.
  - intros status p. eexists. apply run_pausedState_SetExited.
  - intros status p p' e. rewrite run_pausedState_SetExited. discriminate.
Qed.

(** C10: [stateName] names the created, running, stopped and deleted
    states and panics on every other value, the paused state among them;
    so [transition] of the paused state, asked for a name other than
    "running" and "stopped", panics with "invalid state" while it builds
    its error, and does not return the "invalid state transition" error. *)
Theorem pausedState_transition_panics (name : string) (p : initProcess) :
  name <> "running" ->
  name <> "stopped" ->
  (run (stateName (VState createdState)) p = (inr "created", p)
   /\ run (stateName (VState runningState)) p = (inr "running", p)
   /\ run (stateName (VState stoppedState)) p = (inr "stopped", p)
   /\ run (stateName (VState deletedState)) p = (inr "deleted", p))
  /\ (forall v : value,
        (forall s, v = VState s -> s = pausedState) ->
        run (stateName v) p = (inl (ErrorfInvalidState v), p))
  /\ run (stateName (VState pausedState)) p
     = (inl (ErrorfInvalidState (VState pausedState)), p)
  /\ run (pausedState.transition name) p
     = (inl (ErrorfInvalidState (VState pausedState)), p)
  /\ (forall from : string,
        run (pausedState.transition name) p
        <> (inr (Some (ErrorfTransition from name)), p)).
Proof.
  intros Hr Hs.
  split; [repeat split |].
  split; [intros v Hv; apply run_stateName_unhandled; exact Hv |].
  split; [reflexivity |].
  split; [apply run_pausedState_transition_invalid; assumption |].
  intros from.
  rewrite (run_pausedState_transition_invalid name p Hr Hs). discriminate.
Qed.

(** ** The claims at concrete processes *)

(** A paused process whose controller fails every call still stops with
    status 137. *)
Lemma SetExited_always_stops_witness :
  In pausedState [createdState; runningState; pausedState]
  /\ exists (f : Z -> M unit) (p' : initProcess),
       SetExited pausedState = Some f
       /\ run (f 137%Z) (fresh pausedState broken) = (inr tt, p')
       /\ ip_initState p' = stoppedState
       /\ ip_status p' = Some 137%Z
       /\ In (EvSetExited 137) (ip_trace p').
Proof.
  assert (H : In pausedState [createdState; runningState; pausedState])
    by (cbn; tauto).
  split; [exact H |].
  exact (SetExited_always_stops pausedState 137 (fresh pausedState broken) H).
Defined.

(** [Start] with a willing and with a broken controller. *)
Lemma createdState_Start_delegates_witness :
  (ip_initState (fresh createdState willing) = createdState
   /\ start (ip_runtime (fresh createdState willing))
        (ip_trace (fresh createdState willing)) = None
   /\ run createdState.Start (fresh createdState willing)
      = (inr None,
         in_state runningState (after [EvStart] (fresh createdState willing))))
  /\ (ip_initState (fresh createdState broken) = createdState
      /\ start (ip_runtime (fresh createdState broken))
           (ip_trace (fresh createdState broken)) = Some broken_error
      /\ run createdState.Start (fresh createdState broken)
         = (inr (Some broken_error), after [EvStart] (fresh createdState broken))
      /\ ip_initState (after [EvStart] (fresh createdState broken))
         = createdState).
Proof.
  split.
  - split; [reflexivity |]. split; [reflexivity |].
    apply (createdState_Start_delegates (fresh createdState willing) eq_refl).
    reflexivity.
  - split; [reflexivity |]. split; [reflexivity |].
    apply (createdState_Start_delegates (fresh createdState broken) eq_refl).
    reflexivity.
Defined.

(** [Delete] with a willing controller. *)
Lemma Delete_only_created_or_stopped_witness :
  delete (ip_runtime (fresh stoppedState willing))
    (ip_trace (fresh stoppedState willing)) = None
  /\ run stoppedState.Delete (fresh stoppedState willing)
     = (inr None,
        in_state deletedState (after [EvDelete] (fresh stoppedState willing)))
  /\ run runningState.Delete (fresh stoppedState willing)
     = (inr (Some (Errorf "cannot delete a running process")),
        fresh stoppedState willing).
Proof.
  split; [reflexivity |].
  destruct (Delete_only_created_or_stopped (fresh stoppedState willing))
    as [Hok [Hrun _]].
  split; [apply (Hok eq_refl) | exact Hrun].
Defined.

(** [Pause] is not implemented in the running state. *)
Lemma error_entries_reject_witness :
  is_error_entry (spec_table OpPause runningState) = true
  /\ rejects runningState OpPause.
Proof.
  split; [reflexivity |].
  apply (error_entries_reject runningState OpPause). reflexivity.
Defined.

(** Three exit notifications to a stopped process. *)
Lemma stoppedState_SetExited_idempotent_witness :
  ip_initState (fresh stoppedState broken) = stoppedState
  /\ exists p' : initProcess,
       run (repeatedly stoppedState.SetExited [0%Z; 137%Z; (-1)%Z])
         (fresh stoppedState broken) = (inr tt, p')
       /\ ip_initState p' = stoppedState
       /\ controller_calls (ip_trace p')
          = controller_calls (ip_trace (fresh stoppedState broken))
       /\ p' = fresh stoppedState broken.
Proof.
  split; [reflexivity |].
  apply (stoppedState_SetExited_idempotent [0%Z; 137%Z; (-1)%Z]
           (fresh stoppedState broken)).
  reflexivity.
Defined.


(** The created state. *)
Lemma SetExited_never_panics_witness :
  In createdState [createdState; runningState; pausedState]
  /\ exists (tr : string -> M (option error)) (f : Z -> M unit),
       transition createdState = Some tr
       /\ SetExited createdState = Some f
       /\ In "stopped" (spec_successors createdState)
       /\ (forall p : initProcess,
             run (tr "stopped") p = (inr None, in_state stoppedState p))
       /\ (forall (status : Z) (p : initProcess),
             exists p' : initProcess, run (f status) p = (inr tt, p'))
       /\ (forall (status : Z) (p p' : initProcess) (e : error),
             run (f status) p <> (inl e, p')).
Proof.
  assert (H : In createdState [createdState; runningState; pausedState])
    by (cbn; tauto).
  split; [exact H |].
  exact (SetExited_never_panics createdState H).
Defined.

(** The paused state asked to become deleted. *)
Lemma pausedState_transition_panics_witness :
  "deleted" <> "running"
  /\ "deleted" <> "stopped"
  /\ run (pausedState.transition "deleted") (fresh pausedState willing)
     = (inl (ErrorfInvalidState (VState pausedState)),
        fresh pausedState willing).
Proof.
  assert (Hr : "deleted" <> "running") by discriminate.
  assert (Hs : "deleted" <> "stopped") by discriminate.
  split; [exact Hr |]. split; [exact Hs |].
  destruct (pausedState_transition_panics "deleted"
              (fresh pausedState willing) Hr Hs) as (_ & _ & _ & H & _).
  exact H.
Defined.

(** ** Two lives of a process *)

(** Created, started, paused in vain, killed, exited with 137, deleted. *)
Example life_of_a_started_process :
  run (createdState.Start ;;
       runningState.Pause ;;
       runningState.Kill 9 true ;;
       runningState.SetExited 137 ;;
       stoppedState.Delete)
    (fresh createdState willing)
  = (inr None,
     mkInitProcess "init" deletedState (Some 137%Z) willing
       [EvStart; EvKill 9 true; EvSetExited 137; EvDelete]).
Proof. reflexivity. Qed.

(** Created, exited with 0 before any start, deleted. *)
Example life_of_a_stillborn_process :
  run (createdState.SetExited 0 ;; stoppedState.Delete)
    (fresh createdState willing)
  = (inr None,
     mkInitProcess "init" deletedState (Some 0%Z) willing
       [EvSetExited 0; EvDelete]).
Proof. reflexivity. Qed.

(** * Beyond single methods: calls on the installed state *)

(** ** Case analysis over states, operations and controller answers *)

(** Split on every controller answer that a result still depends on. *)
Ltac split_answers :=
  repeat match goal with
  | |- context [match ?x with _ => _ end] =>
      lazymatch x with
      | context [match _ with _ => _ end] => fail
      | _ => destruct x eqn:?
      end
  end.

(** Lay a process open: its state, its controller, its trace. *)
Ltac open_process p :=
  let s := fresh "s" in
  destruct p as [? s ? [? ? ? ? ? ?] ?]; cbn [ip_initState ip_ID ip_status ip_runtime ip_trace] in *.

(** ** One call *)

Lemma call_returns (op : operation) (p : initProcess) :
  ip_initState p <> deletedState ->
  exists (r : result) (p' : initProcess), run (call op) p = (inr (Some r), p').
Proof.
  open_process p. intros Hs.
  destruct s; try contradiction; destruct op; cbv -[app].
  all: split_answers; eexists; eexists; reflexivity.
Qed.

Lemma call_deleted (op : operation) (p : initProcess) :
  ip_initState p = deletedState -> run (call op) p = (inr None, p).
Proof.
  open_process p. intros ->. reflexivity.
Qed.

(** ** Calls in a row *)

Lemma run_bind {A B : Type} (m : M A) (k : A -> M B) (p : initProcess) :
  run (bind m k) p
  = match run m p with
    | (inl e, p1) => (inl e, p1)
    | (inr a, p1) => run (k a) p1
    end.
Proof.
  unfold run. cbn. destruct (runState (unEitherT m) p) as [[e | a] p1]; reflexivity.
Qed.

Lemma run_calls_cons_some
  (op : operation) (rest : list operation) (p p1 : initProcess) (r : result) :
  run (call op) p = (inr (Some r), p1) ->
  run (calls (op :: rest)) p
  = (match fst (run (calls rest) p1) with
     | inl e => inl e
     | inr rs => inr (r :: rs)
     end, snd (run (calls rest) p1)).
Proof.
  intros H. cbn [calls]. rewrite run_bind, H, run_bind.
  destruct (run (calls rest) p1) as [[e | rs] p2]; reflexivity.
Qed.

Lemma run_calls_cons_none
  (op : operation) (rest : list operation) (p p1 : initProcess) :
  run (call op) p = (inr None, p1) ->
  run (calls (op :: rest)) p = (inr [], p1).
Proof.
  intros H. cbn [calls]. rewrite run_bind, H. reflexivity.
Qed.

Lemma calls_deleted (ops : list operation) (p : initProcess) :
  ip_initState p = deletedState -> run (calls ops) p = (inr [], p).
Proof.
  intros H. destruct ops as [| op rest]; [reflexivity |].
  apply run_calls_cons_none. apply call_deleted. exact H.
Qed.

Lemma left_by_calls_cons
  (op : operation) (rest : list operation) (p : initProcess) :
  left_by (calls (op :: rest)) p = left_by (calls rest) (left_by (call op) p).
Proof.
  unfold left_by.
  assert (Hdec : ip_initState p = deletedState \/ ip_initState p <> deletedState)
    by (destruct (ip_initState p); (left; reflexivity) || (right; discriminate)).
  destruct Hdec as [Hd | Hd].
  - rewrite (calls_deleted (op :: rest) p Hd), (call_deleted op p Hd). cbn.
    rewrite (calls_deleted rest p Hd). reflexivity.
  - destruct (call_returns op p Hd) as (r & p1 & Hc).
    rewrite (run_calls_cons_some op rest p p1 r Hc), Hc. reflexivity.
Qed.

Lemma calls_invariant (I : initProcess -> Prop) :
  (forall op p, I p -> I (left_by (call op) p)) ->
  forall ops p, I p -> I (left_by (calls ops) p).
Proof.
  intros Hstep ops. induction ops as [| op rest IH]; intros p Hp.
  - exact Hp.
  - rewrite left_by_calls_cons. apply IH, Hstep, Hp.
Qed.

(** X1: no run of calls panics, whatever the operations, the process and
    the controller's answers: every call made before the process is
    deleted returns its result. *)
Theorem calls_never_panic (ops : list operation) (p : initProcess) :
  exists (rs : list result) (p' : initProcess),
    run (calls ops) p = (inr rs, p') /\ List.length rs <= List.length ops.
Proof.
  revert p. induction ops as [| op rest IH]; intros p.
  - exists [], p. split; [reflexivity | cbn; lia].
  - assert (Hdec : ip_initState p = deletedState \/ ip_initState p <> deletedState)
      by (destruct (ip_initState p); (left; reflexivity) || (right; discriminate)).
    destruct Hdec as [Hd | Hd].
    + exists [], p. split; [apply calls_deleted; exact Hd | cbn; lia].
    + destruct (call_returns op p Hd) as (r & p1 & Hc).
      destruct (IH p1) as (rs & p2 & Hrest & Hlen).
      exists (r :: rs), p2.
      rewrite (run_calls_cons_some op rest p p1 r Hc), Hrest.
      split; [reflexivity | cbn; lia].
Qed.

(** X2: a call that returns an error, its own or the controller's,
    leaves the state and the recorded exit status as they were. *)
Theorem failed_call_keeps_state (op : operation) (p p' : initProcess) (r : result) (e : error) :
  run (call op) p = (inr (Some r), p') ->
  result_error r = Some e ->
  ip_initState p' = ip_initState p /\ ip_status p' = ip_status p.
Proof.
  open_process p.
  destruct s; destruct op; cbv -[app]; split_answers;
    intros H; inversion H; subst; cbn; intros He; try discriminate He;
    split; reflexivity.
Qed.

Lemma call_frame (op : operation) (p : initProcess) :
  ip_ID (left_by (call op) p) = ip_ID p
  /\ ip_runtime (left_by (call op) p) = ip_runtime p
  /\ exists evs : list Event,
       ip_trace (left_by (call op) p) = ip_trace p ++ evs
       /\ controller_calls evs <= 1.
Proof.
  open_process p.
  destruct s; destruct op; cbv -[app controller_calls]; split_answers; cbn;
    (split; [reflexivity |]); (split; [reflexivity |]).
  all: first
    [ exists []; split; [symmetry; apply app_nil_r | cbn; lia]
    | eexists; split; [reflexivity | cbn; lia]
    | eexists; split; [rewrite <- ?app_assoc; reflexivity | cbn; lia] ].
Qed.

Lemma call_rank (op : operation) (p : initProcess) :
  rank (ip_initState p) <= rank (ip_initState (left_by (call op) p)).
Proof.
  open_process p.
  destruct s; destruct op; cbv -[app Nat.le]; split_answers; cbn; lia.
Qed.

Lemma call_not_paused (op : operation) (p : initProcess) :
  ip_initState p <> pausedState ->
  ip_initState (left_by (call op) p) <> pausedState.
Proof.
  open_process p. intros Hs.
  destruct s; try contradiction; destruct op; cbv -[app]; split_answers; cbn;
    discriminate.
Qed.

(** X3: only [Start], [Delete] and [SetExited] can move a process: a
    call of any other operation leaves the state and the recorded exit
    status as they were, also when the controller fails. *)
Theorem other_operations_stay (op : operation) (p : initProcess) :
  may_move op = false ->
  ip_initState (left_by (call op) p) = ip_initState p
  /\ ip_status (left_by (call op) p) = ip_status p.
Proof.
  open_process p.
  destruct s; destruct op; cbn [may_move]; intros Hm; try discriminate Hm;
    cbv -[app]; split_answers; cbn; split; reflexivity.
Qed.

Lemma call_after_stop (op : operation) (p : initProcess) :
  3 <= rank (ip_initState p) ->
  ip_status (left_by (call op) p) = ip_status p
  /\ exit_records (ip_trace (left_by (call op) p)) = exit_records (ip_trace p)
  /\ resume_calls (ip_ID p) (ip_trace (left_by (call op) p))
     = resume_calls (ip_ID p) (ip_trace p).
Proof.
  open_process p.
  destruct s; cbn [rank]; intros Hr; try lia;
    destruct op; cbv -[app exit_records resume_calls]; split_answers; cbn;
    repeat split;
    unfold exit_records, resume_calls; rewrite filter_app, length_app; cbn; lia.
Qed.

Lemma calls_rank (ops : list operation) (p : initProcess) :
  rank (ip_initState p) <= rank (ip_initState (left_by (calls ops) p)).
Proof.
  apply (calls_invariant
           (fun q => rank (ip_initState p) <= rank (ip_initState q))).
  - intros op q Hq. pose proof (call_rank op q). lia.
  - lia.
Qed.

(** X5: no run of calls takes a process back: the state it ends in is
    the state it began in or a later one, in the order created, running,
    paused, stopped, deleted; [Resume] of the paused state never calls
    [transition]. *)
Theorem calls_never_go_back (ops : list operation) (p : initProcess) :
  rank (ip_initState p) <= rank (ip_initState (left_by (calls ops) p))
  /\ (ip_initState (left_by (calls ops) p) = createdState ->
      ip_initState p = createdState).
Proof.
  pose proof (calls_rank ops p) as H. split; [exact H |].
  intros Hc. rewrite Hc in H. destruct (ip_initState p); cbn in H; try lia.
  reflexivity.
Qed.

(** X6: [Pause] of the running state returns its error without calling
    [transition], so no run of calls brings a process that is not paused
    into the paused state. *)
Theorem paused_is_never_entered (ops : list operation) (p : initProcess) :
  ip_initState p <> pausedState ->
  ip_initState (left_by (calls ops) p) <> pausedState.
Proof.
  apply (calls_invariant (fun q => ip_initState q <> pausedState)).
  intros op q. apply call_not_paused.
Qed.

(** X4: a run of calls leaves the id and the controller of the process
    alone and only adds to the trace, at most one controller call for each
    operation asked. *)
Theorem calls_frame (ops : list operation) (p : initProcess) :
  ip_ID (left_by (calls ops) p) = ip_ID p
  /\ ip_runtime (left_by (calls ops) p) = ip_runtime p
  /\ exists evs : list Event,
       ip_trace (left_by (calls ops) p) = ip_trace p ++ evs
       /\ controller_calls evs <= List.length ops.
Proof.
  revert p. induction ops as [| op rest IH]; intros p.
  - repeat split. exists []. split; [symmetry; apply app_nil_r | cbn; lia].
  - rewrite left_by_calls_cons.
    destruct (call_frame op p) as (Hid & Hrt & evs1 & Ht1 & Hc1).
    destruct (IH (left_by (call op) p)) as (Hid' & Hrt' & evs2 & Ht2 & Hc2).
    split; [congruence |]. split; [congruence |].
    exists (evs1 ++ evs2). split.
    + rewrite Ht2, Ht1, app_assoc. reflexivity.
    + rewrite controller_calls_app. cbn [List.length]. lia.
Qed.

Lemma calls_after_stop (ops : list operation) (p : initProcess) :
  3 <= rank (ip_initState p) ->
  3 <= rank (ip_initState (left_by (calls ops) p))
  /\ ip_status (left_by (calls ops) p) = ip_status p
  /\ exit_records (ip_trace (left_by (calls ops) p)) = exit_records (ip_trace p)
  /\ resume_calls (ip_ID p) (ip_trace (left_by (calls ops) p))
     = resume_calls (ip_ID p) (ip_trace p).
Proof.
  intros Hp.
  enough (H : ip_ID (left_by (calls ops) p) = ip_ID p
              /\ 3 <= rank (ip_initState (left_by (calls ops) p))
              /\ ip_status (left_by (calls ops) p) = ip_status p
              /\ exit_records (ip_trace (left_by (calls ops) p))
                 = exit_records (ip_trace p)
              /\ resume_calls (ip_ID p) (ip_trace (left_by (calls ops) p))
                 = resume_calls (ip_ID p) (ip_trace p))
    by (destruct H as (_ & H); exact H).
  apply (calls_invariant
           (fun q => ip_ID q = ip_ID p
                     /\ 3 <= rank (ip_initState q)
                     /\ ip_status q = ip_status p
                     /\ exit_records (ip_trace q) = exit_records (ip_trace p)
                     /\ resume_calls (ip_ID p) (ip_trace q)
                        = resume_calls (ip_ID p) (ip_trace p))).
  - intros op q (Hidq & Hr & Hs & He & Hres).
    destruct (call_after_stop op q Hr) as (Hs' & He' & Hres').
    destruct (call_frame op q) as (Hid & _).
    pose proof (call_rank op q).
    rewrite Hidq in Hres'.
    repeat split; try lia; congruence.
  - repeat split. exact Hp.
Qed.

Lemma call_SetExited_first (status : Z) (p : initProcess) :
  rank (ip_initState p) < 3 ->
  ip_initState (left_by (call (OpSetExited status)) p) = stoppedState
  /\ ip_status (left_by (call (OpSetExited status)) p) = Some status
  /\ exit_records (ip_trace (left_by (call (OpSetExited status)) p))
     = S (exit_records (ip_trace p)).
Proof.
  open_process p.
  destruct s; cbn [rank]; intros Hr; try lia;
    cbv -[app exit_records]; split_answers; cbn; repeat split;
    unfold exit_records; rewrite ?filter_app, ?length_app; cbn; lia.
Qed.

(** X7: the first exit notification is the one that counts: once
    [SetExited] ran on a process that was not yet stopped, the status it
    recorded is still there after any further calls, later [SetExited]
    calls included, and the process is stopped or deleted. *)
Theorem first_exit_status_stays
  (status : Z) (ops : list operation) (p : initProcess) :
  rank (ip_initState p) < 3 ->
  ip_status (left_by (calls (OpSetExited status :: ops)) p) = Some status
  /\ 3 <= rank (ip_initState (left_by (calls (OpSetExited status :: ops)) p)).
Proof.
  intros Hp. rewrite left_by_calls_cons.
  destruct (call_SetExited_first status p Hp) as (Hs & Hst & _).
  assert (H3 : 3 <= rank (ip_initState (left_by (call (OpSetExited status)) p)))
    by (rewrite Hs; cbn; lia).
  destruct (calls_after_stop ops _ H3) as (Hr & Hst' & _).
  split; [congruence | exact Hr].
Qed.

Lemma call_exit_records (op : operation) (p : initProcess) :
  (exit_records (ip_trace (left_by (call op) p)) = exit_records (ip_trace p))
  \/ (exit_records (ip_trace (left_by (call op) p)) = S (exit_records (ip_trace p))
      /\ ip_initState (left_by (call op) p) = stoppedState
      /\ rank (ip_initState p) < 3).
Proof.
  open_process p.
  destruct s; destruct op; cbv -[app exit_records Nat.lt]; split_answers; cbn;
    unfold exit_records; rewrite ?filter_app, ?length_app; cbn;
    first [left; lia | right; repeat split; lia].
Qed.

(** X8: along any run of calls [setExited] of [initProcess] is called at
    most once, and not at all on a process that is already stopped or
    deleted. *)
Theorem setExited_at_most_once (ops : list operation) (p : initProcess) :
  exit_records (ip_trace (left_by (calls ops) p)) <= S (exit_records (ip_trace p))
  /\ (3 <= rank (ip_initState p) ->
      exit_records (ip_trace (left_by (calls ops) p)) = exit_records (ip_trace p)).
Proof.
  split.
  - revert p. induction ops as [| op rest IH]; intros p.
    + cbn. lia.
    + rewrite left_by_calls_cons.
      destruct (call_exit_records op p) as [Hsame | (Hone & Hs & _)].
      * rewrite <- Hsame. apply IH.
      * assert (H3 : 3 <= rank (ip_initState (left_by (call op) p)))
          by (rewrite Hs; cbn; lia).
        destruct (calls_after_stop rest _ H3) as (_ & _ & He & _). lia.
  - intros H3. destruct (calls_after_stop ops p H3) as (_ & _ & He & _). exact He.
Qed.

(** ** What reaches the controller *)

(** X9: a method that hands its operation over to the controller makes
    exactly that one call and returns exactly what the controller
    answered: the error, nil or not, and for [Exec] the process handle
    with it. It leaves the recorded exit status alone, and the state too
    when the answer carries an error. *)
Theorem delegation_passes_the_answer
  (op : operation) (p : initProcess) (answer : result) :
  handed_over (ip_initState p) op p = Some answer ->
  exists (p' : initProcess) (ev : Event),
    run (call op) p = (inr (Some answer), p')
    /\ ip_trace p' = ip_trace p ++ [ev]
    /\ is_controller_call ev = true
    /\ ip_status p' = ip_status p
    /\ (result_error answer <> None -> ip_initState p' = ip_initState p).
Proof.
  open_process p.
  destruct s; destruct op; cbn -[app]; intros H; inversion H; subst answer;
    clear H; cbv -[app]; split_answers;
    eexists; eexists;
    (split; [reflexivity |]); cbn;
    repeat split; congruence.
Qed.

(** X10: the other methods never reach the controller, but for
    [SetExited] of the paused state with its one [Resume]. *)
Theorem no_call_without_delegation (op : operation) (p : initProcess) :
  handed_over (ip_initState p) op p = None ->
  exists evs : list Event,
    ip_trace (left_by (call op) p) = ip_trace p ++ evs
    /\ controller_calls evs
       = match ip_initState p, op with
         | pausedState, OpSetExited _ => 1
         | _, _ => 0
         end.
Proof.
  open_process p.
  destruct s; destruct op; cbn -[app]; intros H; try discriminate H;
    cbv -[app controller_calls]; split_answers; cbn.
  all: first
    [ exists []; split; [symmetry; apply app_nil_r | reflexivity]
    | eexists; split; [reflexivity | reflexivity]
    | eexists; split; [rewrite <- ?app_assoc; reflexivity | reflexivity] ].
Qed.

(** X11: a call changes the state in three ways only: [Start] on a
    created process whose controller started it, [Delete] on a created or
    stopped process whose controller deleted it, and [SetExited] on a
    process not yet stopped, which records the status. *)
Theorem state_change_has_a_cause (op : operation) (p : initProcess) :
  ip_initState (left_by (call op) p) <> ip_initState p ->
  (op = OpStart
   /\ ip_initState p = createdState
   /\ ip_initState (left_by (call op) p) = runningState
   /\ start (ip_runtime p) (ip_trace p) = None)
  \/ (op = OpDelete
      /\ (ip_initState p = createdState \/ ip_initState p = stoppedState)
      /\ ip_initState (left_by (call op) p) = deletedState
      /\ delete (ip_runtime p) (ip_trace p) = None)
  \/ (exists status : Z,
        op = OpSetExited status
        /\ rank (ip_initState p) < 3
        /\ ip_initState (left_by (call op) p) = stoppedState
        /\ ip_status (left_by (call op) p) = Some status).
Proof.
  open_process p.
  destruct s; destruct op; cbv -[app Nat.lt]; split_answers; cbn; intros H;
    try (exfalso; apply H; reflexivity).
  all: first
    [ solve [left; repeat split; auto]
    | solve [right; left; repeat split; auto]
    | solve [right; right; eexists; repeat split; lia] ].
Qed.

Lemma call_stopped_has_status (op : operation) (p : initProcess) :
  (ip_initState p = stoppedState -> ip_status p <> None) ->
  ip_initState (left_by (call op) p) = stoppedState ->
  ip_status (left_by (call op) p) <> None.
Proof.
  open_process p.
  destruct s; destruct op; cbv -[app]; split_answers; cbn;
    intros Hp Hs; try discriminate Hs; try (apply Hp; reflexivity);
    discriminate.
Qed.

(** X12: a stopped process has an exit status on record: if that holds
    before a run of calls, it holds after it. *)
Theorem stopped_has_exit_status (ops : list operation) (p : initProcess) :
  (ip_initState p = stoppedState -> ip_status p <> None) ->
  ip_initState (left_by (calls ops) p) = stoppedState ->
  ip_status (left_by (calls ops) p) <> None.
Proof.
  apply (calls_invariant
           (fun q => ip_initState q = stoppedState -> ip_status q <> None)).
  intros op q. apply call_stopped_has_status.
Qed.

(** ** Names of states *)

(** X13: [stateName] and [transition] use the same names: when
    [stateName] names the state [t] and a [transition] accepts that name,
    it installs [t] and changes nothing else. *)
Theorem stateName_names_what_transition_installs
  (s t : initState) (tr : string -> M (option error)) (name : string)
  (p p' : initProcess) :
  transition s = Some tr ->
  run (stateName (VState t)) p = (inr name, p) ->
  run (tr name) p = (inr None, p') ->
  p' = in_state t p.
Proof.
  intros Htr Hname Hrun.
  destruct t; cbv in Hname; inversion Hname; subst name; clear Hname;
    destruct s; inversion Htr; subst tr; clear Htr;
    cbv in Hrun; inversion Hrun; reflexivity.
Qed.

Lemma transition_accepts_only_listed
  (s : initState) (tr : string -> M (option error)) (name : string)
  (p p' : initProcess) :
  transition s = Some tr ->
  run (tr name) p = (inr None, p') ->
  In name (spec_successors s).
Proof.
  intros Htr Hrun.
  destruct (in_dec string_dec name (spec_successors s)) as [Hin | Hout];
    [exact Hin | exfalso].
  rewrite (transition_default s name Hout tr Htr) in Hrun.
  destruct s; cbv in Hrun; discriminate Hrun.
Qed.

(** X14: after an accepted [transition] to a name other than "deleted",
    [Status] of the process returns that very name. *)
Theorem Status_reads_back_the_transition
  (s : initState) (tr : string -> M (option error)) (name : string)
  (p p' : initProcess) :
  transition s = Some tr ->
  run (tr name) p = (inr None, p') ->
  (name = "deleted" /\ ip_initState p' = deletedState)
  \/ run (call OpStatus) p' = (inr (Some (RStatus (name, None))), p').
Proof.
  intros Htr Hrun.
  pose proof (transition_accepts_only_listed s tr name p p' Htr Hrun) as Hin.
  destruct s; inversion Htr; subst tr; clear Htr; cbn in Hin;
    repeat (destruct Hin as [<- | Hin]; [| ]); try contradiction;
    cbv in Hrun; inversion Hrun; subst p'; clear Hrun;
    first [left; split; reflexivity | right; reflexivity].
Qed.

(** X15: wherever [stateName] has a name for the state a process is in,
    [Status] returns the same name. *)
Theorem Status_agrees_with_stateName
  (name : string) (p : initProcess) :
  run (stateName (VState (ip_initState p))) p = (inr name, p) ->
  ip_initState p <> deletedState ->
  run (call OpStatus) p = (inr (Some (RStatus (name, None))), p).
Proof.
  open_process p.
  destruct s; cbv; intros H Hd; inversion H; subst; try reflexivity.
  exfalso. apply Hd. reflexivity.
Qed.

(** X16: a process is started at most once: after it has left the
    created state, and whatever calls follow, [Start] is turned down with
    an error and changes nothing (on a deleted process it is not run). *)
Theorem Start_is_refused_after_leaving_created
  (ops : list operation) (p : initProcess) :
  1 <= rank (ip_initState p) ->
  run (call OpStart) (left_by (calls ops) p)
  = (inr None, left_by (calls ops) p)
  \/ exists e : error,
       run (call OpStart) (left_by (calls ops) p)
       = (inr (Some (RError (Some e))), left_by (calls ops) p).
Proof.
  intros Hp. pose proof (calls_rank ops p) as Hr.
  set (q := left_by (calls ops) p) in *.
  assert (Hq : 1 <= rank (ip_initState q)) by lia. clearbody q.
  open_process q.
  destruct s; cbn in Hq; try lia;
    first [left; reflexivity | right; eexists; reflexivity].
Qed.

Lemma call_resume_calls (op : operation) (p : initProcess) :
  (resume_calls (ip_ID p) (ip_trace (left_by (call op) p))
   = resume_calls (ip_ID p) (ip_trace p))
  \/ (resume_calls (ip_ID p) (ip_trace (left_by (call op) p))
      = S (resume_calls (ip_ID p) (ip_trace p))
      /\ ip_initState p = pausedState
      /\ ip_initState (left_by (call op) p) = stoppedState).
Proof.
  open_process p.
  destruct s; destruct op; cbv -[app resume_calls]; split_answers; cbn;
    unfold resume_calls; rewrite ?filter_app, ?length_app; cbn;
    rewrite ?String.eqb_refl; cbn;
    first [left; lia | right; repeat split; lia].
Qed.

(** X17: along any run of calls the controller is asked at most once to
    resume the process, and never when the run begins in a state other
    than the paused one. *)
Theorem Resume_at_most_once (ops : list operation) (p : initProcess) :
  resume_calls (ip_ID p) (ip_trace (left_by (calls ops) p))
  <= S (resume_calls (ip_ID p) (ip_trace p))
  /\ (ip_initState p <> pausedState ->
      resume_calls (ip_ID p) (ip_trace (left_by (calls ops) p))
      = resume_calls (ip_ID p) (ip_trace p)).
Proof.
  split.
  - revert p. induction ops as [| op rest IH]; intros p.
    + cbn. lia.
    + rewrite left_by_calls_cons.
      destruct (call_frame op p) as (Hid & _).
      destruct (call_resume_calls op p) as [Hsame | (Hone & _ & Hs)].
      * rewrite <- Hsame, <- Hid. apply IH.
      * assert (H3 : 3 <= rank (ip_initState (left_by (call op) p)))
          by (rewrite Hs; cbn; lia).
        destruct (calls_after_stop rest _ H3) as (_ & _ & _ & Hr).
        rewrite Hid in Hr. lia.
  - intros Hp.
    enough (H : ip_ID (left_by (calls ops) p) = ip_ID p
                /\ ip_initState (left_by (calls ops) p) <> pausedState
                /\ resume_calls (ip_ID p) (ip_trace (left_by (calls ops) p))
                   = resume_calls (ip_ID p) (ip_trace p))
      by (destruct H as (_ & _ & H); exact H).
    apply (calls_invariant
             (fun q => ip_ID q = ip_ID p
                       /\ ip_initState q <> pausedState
                       /\ resume_calls (ip_ID p) (ip_trace q)
                          = resume_calls (ip_ID p) (ip_trace p))).
    + intros op q (Hidq & Hnp & Hr).
      destruct (call_frame op q) as (Hid & _).
      split; [congruence |].
      split; [apply call_not_paused; exact Hnp |].
      destruct (call_resume_calls op q) as [Hsame | (_ & Hpaused & _)];
        [| contradiction].
      rewrite Hidq in Hsame. congruence.
    + repeat split. exact Hp.
Qed.

(** ** The same at concrete processes *)

(** A stopped process whose controller cannot delete it. *)
Lemma failed_call_keeps_state_witness :
  run (call OpDelete) (fresh stoppedState broken)
  = (inr (Some (RError (Some broken_error))),
     after [EvDelete] (fresh stoppedState broken))
  /\ result_error (RError (Some broken_error)) = Some broken_error
  /\ ip_initState (after [EvDelete] (fresh stoppedState broken))
     = ip_initState (fresh stoppedState broken)
  /\ ip_status (after [EvDelete] (fresh stoppedState broken))
     = ip_status (fresh stoppedState broken).
Proof.
  split; [reflexivity |]. split; [reflexivity |].
  apply (failed_call_keeps_state OpDelete (fresh stoppedState broken)
           (after [EvDelete] (fresh stoppedState broken))
           (RError (Some broken_error)) broken_error);
    reflexivity.
Defined.

(** A kill that fails on a running process. *)
Lemma other_operations_stay_witness :
  may_move (OpKill 9 true) = false
  /\ ip_initState (left_by (call (OpKill 9 true)) (fresh runningState broken))
     = ip_initState (fresh runningState broken)
  /\ ip_status (left_by (call (OpKill 9 true)) (fresh runningState broken))
     = ip_status (fresh runningState broken).
Proof.
  split; [reflexivity |].
  apply (other_operations_stay (OpKill 9 true) (fresh runningState broken)).
  reflexivity.
Defined.

(** A kill and a delete that the controller fails leave a created
    process created. *)
Lemma calls_never_go_back_witness :
  ip_initState (left_by (calls [OpKill 15 false; OpDelete])
                  (fresh createdState broken)) = createdState
  /\ ip_initState (fresh createdState broken) = createdState.
Proof.
  assert (H : ip_initState (left_by (calls [OpKill 15 false; OpDelete])
                              (fresh createdState broken)) = createdState)
    by reflexivity.
  split; [exact H |].
  exact (proj2 (calls_never_go_back [OpKill 15 false; OpDelete]
                  (fresh createdState broken)) H).
Defined.

(** Start, pause, kill, exit. *)
Lemma paused_is_never_entered_witness :
  ip_initState (fresh createdState willing) <> pausedState
  /\ ip_initState
       (left_by (calls [OpStart; OpPause; OpKill 15 false; OpSetExited 0])
          (fresh createdState willing)) <> pausedState.
Proof.
  assert (H : ip_initState (fresh createdState willing) <> pausedState)
    by discriminate.
  split; [exact H |].
  exact (paused_is_never_entered
           [OpStart; OpPause; OpKill 15 false; OpSetExited 0]
           (fresh createdState willing) H).
Defined.

(** Exit with 137, then a second notification and a delete. *)
Lemma first_exit_status_stays_witness :
  rank (ip_initState (fresh runningState willing)) < 3
  /\ ip_status (left_by (calls [OpSetExited 137; OpSetExited 0; OpDelete])
                  (fresh runningState willing)) = Some 137%Z
  /\ 3 <= rank (ip_initState
                  (left_by (calls [OpSetExited 137; OpSetExited 0; OpDelete])
                     (fresh runningState willing))).
Proof.
  assert (H : rank (ip_initState (fresh runningState willing)) < 3)
    by (cbn; lia).
  split; [exact H |].
  exact (first_exit_status_stays 137 [OpSetExited 0; OpDelete]
           (fresh runningState willing) H).
Defined.

(** Two more notifications to a stopped process. *)
Lemma setExited_at_most_once_witness :
  3 <= rank (ip_initState (fresh stoppedState willing))
  /\ exit_records
       (ip_trace (left_by (calls [OpSetExited 1; OpSetExited 2])
                    (fresh stoppedState willing)))
     = exit_records (ip_trace (fresh stoppedState willing)).
Proof.
  assert (H : 3 <= rank (ip_initState (fresh stoppedState willing)))
    by (cbn; lia).
  split; [exact H |].
  exact (proj2 (setExited_at_most_once [OpSetExited 1; OpSetExited 2]
                  (fresh stoppedState willing)) H).
Defined.

(** An exec on a running process whose controller fails it. *)
Lemma delegation_passes_the_answer_witness :
  handed_over (ip_initState (fresh runningState broken))
    (OpExec "sh" (mkExecOpts None true)) (fresh runningState broken)
  = Some (RExec (None, Some broken_error))
  /\ exists (p' : initProcess) (ev : Event),
       run (call (OpExec "sh" (mkExecOpts None true)))
         (fresh runningState broken)
       = (inr (Some (RExec (None, Some broken_error))), p')
       /\ ip_trace p' = ip_trace (fresh runningState broken) ++ [ev]
       /\ is_controller_call ev = true
       /\ ip_status p' = ip_status (fresh runningState broken)
       /\ (result_error (RExec (None, Some broken_error)) <> None ->
           ip_initState p' = ip_initState (fresh runningState broken)).
Proof.
  split; [reflexivity |].
  apply (delegation_passes_the_answer (OpExec "sh" (mkExecOpts None true))
           (fresh runningState broken) (RExec (None, Some broken_error))).
  reflexivity.
Defined.

(** The exit of a paused process. *)
Lemma no_call_without_delegation_witness :
  handed_over (ip_initState (fresh pausedState willing)) (OpSetExited 0)
    (fresh pausedState willing) = None
  /\ exists evs : list Event,
       ip_trace (left_by (call (OpSetExited 0)) (fresh pausedState willing))
       = ip_trace (fresh pausedState willing) ++ evs
       /\ controller_calls evs = 1.
Proof.
  split; [reflexivity |].
  apply (no_call_without_delegation (OpSetExited 0) (fresh pausedState willing)).
  reflexivity.
Defined.

(** A start that goes through. *)
Lemma state_change_has_a_cause_witness :
  ip_initState (left_by (call OpStart) (fresh createdState willing))
  <> ip_initState (fresh createdState willing)
  /\ ((OpStart = OpStart
       /\ ip_initState (fresh createdState willing) = createdState
       /\ ip_initState (left_by (call OpStart) (fresh createdState willing))
          = runningState
       /\ start (ip_runtime (fresh createdState willing))
            (ip_trace (fresh createdState willing)) = None)
      \/ (OpStart = OpDelete
          /\ (ip_initState (fresh createdState willing) = createdState
              \/ ip_initState (fresh createdState willing) = stoppedState)
          /\ ip_initState (left_by (call OpStart) (fresh createdState willing))
             = deletedState
          /\ delete (ip_runtime (fresh createdState willing))
               (ip_trace (fresh createdState willing)) = None)
      \/ (exists status : Z,
            OpStart = OpSetExited status
            /\ rank (ip_initState (fresh createdState willing)) < 3
            /\ ip_initState
                 (left_by (call OpStart) (fresh createdState willing))
               = stoppedState
            /\ ip_status (left_by (call OpStart) (fresh createdState willing))
               = Some status)).
Proof.
  assert (H : ip_initState (left_by (call OpStart) (fresh createdState willing))
              <> ip_initState (fresh createdState willing))
    by (cbv; discriminate).
  split; [exact H |].
  exact (state_change_has_a_cause OpStart (fresh createdState willing) H).
Defined.

(** Started, then exited with 3. *)
Lemma stopped_has_exit_status_witness :
  (ip_initState (fresh createdState willing) = stoppedState ->
   ip_status (fresh createdState willing) <> None)
  /\ ip_initState (left_by (calls [OpStart; OpSetExited 3])
                     (fresh createdState willing)) = stoppedState
  /\ ip_status (left_by (calls [OpStart; OpSetExited 3])
                  (fresh createdState willing)) <> None.
Proof.
  assert (H0 : ip_initState (fresh createdState willing) = stoppedState ->
               ip_status (fresh createdState willing) <> None)
    by (intros H; discriminate H).
  assert (H1 : ip_initState (left_by (calls [OpStart; OpSetExited 3])
                               (fresh createdState willing)) = stoppedState)
    by reflexivity.
  split; [exact H0 |]. split; [exact H1 |].
  exact (stopped_has_exit_status [OpStart; OpSetExited 3]
           (fresh createdState willing) H0 H1).
Defined.

(** The created state asked to become running. *)
Lemma stateName_names_what_transition_installs_witness :
  transition createdState = Some createdState.transition
  /\ run (stateName (VState runningState)) (fresh createdState willing)
     = (inr "running", fresh createdState willing)
  /\ run (createdState.transition "running") (fresh createdState willing)
     = (inr None, fresh runningState willing)
  /\ fresh runningState willing
     = in_state runningState (fresh createdState willing).
Proof.
  split; [reflexivity |]. split; [reflexivity |]. split; [reflexivity |].
  apply (stateName_names_what_transition_installs createdState runningState
           createdState.transition "running" (fresh createdState willing)
           (fresh runningState willing));
    reflexivity.
Defined.

(** The running state asked to become stopped. *)
Lemma Status_reads_back_the_transition_witness :
  transition runningState = Some runningState.transition
  /\ run (runningState.transition "stopped") (fresh runningState willing)
     = (inr None, fresh stoppedState willing)
  /\ (("stopped" = "deleted"
       /\ ip_initState (fresh stoppedState willing) = deletedState)
      \/ run (call OpStatus) (fresh stoppedState willing)
         = (inr (Some (RStatus ("stopped", None))), fresh stoppedState willing)).
Proof.
  split; [reflexivity |]. split; [reflexivity |].
  apply (Status_reads_back_the_transition runningState
           runningState.transition "stopped" (fresh runningState willing)
           (fresh stoppedState willing));
    reflexivity.
Defined.

(** A running process. *)
Lemma Status_agrees_with_stateName_witness :
  run (stateName (VState (ip_initState (fresh runningState willing))))
    (fresh runningState willing)
  = (inr "running", fresh runningState willing)
  /\ ip_initState (fresh runningState willing) <> deletedState
  /\ run (call OpStatus) (fresh runningState willing)
     = (inr (Some (RStatus ("running", None))), fresh runningState willing).
Proof.
  assert (Hd : ip_initState (fresh runningState willing) <> deletedState)
    by discriminate.
  split; [reflexivity |]. split; [exact Hd |].
  apply (Status_agrees_with_stateName "running" (fresh runningState willing));
    [reflexivity | exact Hd].
Defined.

(** A second start of a running process, after a kill. *)
Lemma Start_is_refused_after_leaving_created_witness :
  1 <= rank (ip_initState (fresh runningState willing))
  /\ (run (call OpStart)
        (left_by (calls [OpKill 9 true]) (fresh runningState willing))
      = (inr None,
         left_by (calls [OpKill 9 true]) (fresh runningState willing))
      \/ exists e : error,
           run (call OpStart)
             (left_by (calls [OpKill 9 true]) (fresh runningState willing))
           = (inr (Some (RError (Some e))),
              left_by (calls [OpKill 9 true]) (fresh runningState willing))).
Proof.
  assert (H : 1 <= rank (ip_initState (fresh runningState willing)))
    by (cbn; lia).
  split; [exact H |].
  exact (Start_is_refused_after_leaving_created [OpKill 9 true]
           (fresh runningState willing) H).
Defined.

(** A running process that exits is never resumed. *)
Lemma Resume_at_most_once_witness :
  ip_initState (fresh runningState willing) <> pausedState
  /\ resume_calls (ip_ID (fresh runningState willing))
       (ip_trace (left_by (calls [OpSetExited 0; OpResume])
                    (fresh runningState willing)))
     = resume_calls (ip_ID (fresh runningState willing))
         (ip_trace (fresh runningState willing)).
Proof.
  assert (H : ip_initState (fresh runningState willing) <> pausedState)
    by discriminate.
  split; [exact H |].
  exact (proj2 (Resume_at_most_once [OpSetExited 0; OpResume]
                  (fresh runningState willing)) H).
Defined.
